(** * OnlyWorlds tool template: the launcher [start.py]

    A shallow embedding of [src/start.py] (Python 3 semantics) and the
    properties of its control flow.

    The launcher only calls operating-system and library services, so the
    embedding is a trace semantics: every call is an event appended to a log,
    and what the outside world answers (does [bind] fail, how does the serve
    loop end, which requests arrive, is there a browser) is read from an
    explicit [world].  A call that never returns, such as a serve loop that
    is never interrupted, is the result [NoReturn]. *)

From Stdlib Require Import String Ascii List ZArith Lia Bool Arith DecimalString.
Import ListNotations.
Local Open Scope string_scope.
Local Open Scope list_scope.

(* ===================================================================== *)
(** ** Python control flow: exceptions and calls that never return       *)
(* ===================================================================== *)

Module Py.

(** The exception classes the launcher can meet.  The handler in [main] is
    a bare [except:], which does not look at the class. *)
Inductive exn : Type :=
| KeyboardInterrupt
| SystemExit
| OSError (errno : Z)
| RuntimeError (msg : string)
| WebbrowserError.

Definition EADDRINUSE : Z := 98.

(** Result of running a piece of code: it returns a value, raises, or
    never hands control back. *)
Inductive result (A : Type) : Type :=
| Ret (a : A)
| Raise (e : exn)
| NoReturn.
Arguments Ret {A} a.
Arguments Raise {A} e.
Arguments NoReturn {A}.

(** Code over a state [St]; the state reached is kept on every path. *)
Definition M (St A : Type) : Type := St -> result A * St.

Definition ret {St A} (a : A) : M St A := fun s => (Ret a, s).

Definition raise {St A} (e : exn) : M St A := fun s => (Raise e, s).

Definition bind {St A B} (c : M St A) (k : A -> M St B) : M St B :=
  fun s =>
    match c s with
    | (Ret a, s') => k a s'
    | (Raise e, s') => (Raise e, s')
    | (NoReturn, s') => (NoReturn, s')
    end.

(** [try: body  except: handler] with a bare [except:]: every exception,
    [KeyboardInterrupt] and [SystemExit] included, enters the handler. *)
Definition try_except {St A} (body handler : M St A) : M St A :=
  fun s =>
    match body s with
    | (Raise _, s') => handler s'
    | r => r
    end.

(** [with enter as x: body]: [leave x] runs when the body returns and when
    it raises, and the exception then goes on ([__exit__] returns None). *)
Definition with_as {St R A} (enter : M St R) (leave : R -> M St unit)
           (body : R -> M St A) : M St A :=
  fun s =>
    match enter s with
    | (Ret x, s1) =>
        match body x s1 with
        | (Ret a, s2) =>
            match leave x s2 with
            | (Ret _, s3) => (Ret a, s3)
            | (Raise e, s3) => (Raise e, s3)
            | (NoReturn, s3) => (NoReturn, s3)
            end
        | (Raise e, s2) =>
            match leave x s2 with
            | (Ret _, s3) => (Raise e, s3)
            | (Raise e', s3) => (Raise e', s3)
            | (NoReturn, s3) => (NoReturn, s3)
            end
        | (NoReturn, s2) => (NoReturn, s2)
        end
    | (Raise e, s1) => (Raise e, s1)
    | (NoReturn, s1) => (NoReturn, s1)
    end.

(** [str(n)] for an [int]. *)
Definition str (n : Z) : string := NilZero.string_of_int (Z.to_int n).

(** [s * n] for a [str]. *)
Fixpoint str_mul (s : string) (n : nat) : string :=
  match n with
  | O => ""
  | S n' => (s ++ str_mul s n')%string
  end.

End Py.

Import Py.

Declare Scope py_scope.
Delimit Scope py_scope with py.
Notation "x <- c ;; k" := (Py.bind c (fun x => k))
  (at level 61, c at next level, right associativity) : py_scope.
Notation "c ;; k" := (Py.bind c (fun _ => k))
  (at level 61, right associativity) : py_scope.
Local Open Scope py_scope.

(* ===================================================================== *)
(** ** The outside world                                                  *)
(* ===================================================================== *)

(** How one run of [serve_forever] ends: it is never interrupted, or it
    raises [e] after [after_ms] milliseconds.  Nothing in the launcher calls
    [shutdown], so it never returns normally. *)
Inductive serve_end : Type :=
| Forever
| Stops (after_ms : nat) (e : exn).

(** One run of a serve loop: the request paths it handles (for a loop that
    runs forever, those observed so far) and how it ends. *)
Record serve_script : Type := {
  requests : list string;
  ending : serve_end
}.

(** What [webbrowser.open] does: a browser is found, none is found (the call
    returns False), or the call raises. *)
Inductive browser_outcome : Type :=
| Opened
| NoBrowser
| OpenRaises (e : exn).

Record world : Type := {
  argv : list string;                  (* sys.argv[1:] *)
  script_dir : string;                 (* dirname(abspath(__file__)) *)
  chdir_outcome : option exn;          (* None: os.chdir succeeds *)
  start_outcome : option exn;          (* None: Thread.start succeeds *)
  bind_outcome : nat -> option exn;    (* per server created, in order *)
  serve_outcome : nat -> serve_script; (* per server created, in order *)
  browser : browser_outcome
}.

(* ===================================================================== *)
(** ** The background thread                                              *)
(* ===================================================================== *)

Module Thread.

Inductive event : Type :=
| Sleep (secs : nat)
| BrowserOpen (url : string)
| Excepthook (e : exn).

(** State of a running thread.  [deadline] is the time at which the
    process exits, if it does and the thread is a daemon; [found] is what
    the desktop answers; neither is written by thread code. *)
Record state : Type := {
  log : list event;
  now : nat;                         (* milliseconds since launch *)
  deadline : option nat;
  found : browser_outcome
}.

Definition emit (e : event) (s : state) : state :=
  {| log := log s ++ [e]; now := now s;
     deadline := deadline s; found := found s |}.

Definition wake (t : nat) (s : state) : state :=
  {| log := log s; now := t; deadline := deadline s; found := found s |}.

(** [time.sleep(secs)].  A daemon thread still asleep when the process
    exits is dropped with it. *)
Definition time_sleep (secs : nat) : M state unit :=
  fun s =>
    let t := now s + 1000 * secs in
    match deadline s with
    | Some d => if (d <? t)%nat then (NoReturn, emit (Sleep secs) s)
                else (Ret tt, wake t (emit (Sleep secs) s))
    | None => (Ret tt, wake t (emit (Sleep secs) s))
    end.

(** [webbrowser.open(url)]. *)
Definition webbrowser_open (url : string) : M state bool :=
  fun s =>
    match found s with
    | Opened => (Ret true, emit (BrowserOpen url) s)
    | NoBrowser => (Ret false, emit (BrowserOpen url) s)
    | OpenRaises e => (Raise e, emit (BrowserOpen url) s)
    end.

(** A [threading.Thread] object. *)
Record t : Type := {
  target : M state unit;
  daemon : bool
}.

(** [threading.Thread(target=f)], created from the main thread. *)
Definition new (f : M state unit) : t := {| target := f; daemon := false |}.

Definition set_daemon (th : t) (b : bool) : t :=
  {| target := target th; daemon := b |}.

(** The thread's whole run, started at [t0] in a process that exits at
    [exit] (None: it does not).  An exception of the target ends in the
    thread's excepthook and goes nowhere else. *)
Definition run (th : t) (t0 : nat) (exit : option nat)
           (b : browser_outcome) : list event :=
  let s0 := {| log := []; now := t0;
               deadline := if daemon th then exit else None;
               found := b |} in
  match target th s0 with
  | (Raise e, s) => log (emit (Excepthook e) s)
  | (_, s) => log s
  end.

End Thread.

(* ===================================================================== *)
(** ** The main thread                                                    *)
(* ===================================================================== *)

Inductive server_class : Type := TCPServer | HTTPServer.

Inductive event : Type :=
| Println (line : string)
| Chdir (dir : string)
| ThreadStart (daemon : bool)
| Bind (cls : server_class) (host : string) (port : Z) (fd : nat)
| ServeForever (fd : nat)
| HandleRequest (fd : nat) (path : string)
| ServerClose (fd : nat).

Record state : Type := {
  trace : list event;                  (* calls made so far, oldest first *)
  clock : nat;                         (* milliseconds since launch; only
                                          serve loops take time on it *)
  cwd_log : list string;               (* directories chdir has set *)
  listening : list nat;                (* sockets bound and not closed *)
  created : nat;                       (* servers created so far *)
  threads : list (Thread.t * nat)      (* started threads, with start time *)
}.

Definition init : state :=
  {| trace := []; clock := 0; cwd_log := []; listening := [];
     created := 0; threads := [] |}.

Definition emit (e : event) (s : state) : state :=
  {| trace := trace s ++ [e]; clock := clock s; cwd_log := cwd_log s;
     listening := listening s; created := created s; threads := threads s |}.

Definition emits (es : list event) (s : state) : state :=
  {| trace := trace s ++ es; clock := clock s; cwd_log := cwd_log s;
     listening := listening s; created := created s; threads := threads s |}.

Record server : Type := {
  server_cls : server_class;
  server_address : string * Z;
  fileno : nat
}.

Section Launcher.

Variable w : world.

Definition print (line : string) : M state unit :=
  fun s => (Ret tt, emit (Println line) s).

(** [os.chdir(d)] *)
Definition os_chdir (d : string) : M state unit :=
  fun s =>
    let s1 := emit (Chdir d) s in
    match chdir_outcome w with
    | Some e => (Raise e, s1)
    | None =>
        (Ret tt,
         {| trace := trace s1; clock := clock s1;
            cwd_log := cwd_log s1 ++ [d]; listening := listening s1;
            created := created s1; threads := threads s1 |})
    end.

(** [th.start()] *)
Definition thread_start (th : Thread.t) : M state unit :=
  fun s =>
    let s1 := emit (ThreadStart (Thread.daemon th)) s in
    match start_outcome w with
    | Some e => (Raise e, s1)
    | None =>
        (Ret tt,
         {| trace := trace s1; clock := clock s1; cwd_log := cwd_log s1;
            listening := listening s1; created := created s1;
            threads := threads s1 ++ [(th, clock s1)] |})
    end.

(** [cls((host, port), SimpleHTTPRequestHandler)]: the constructor binds
    and listens; when that fails it closes the socket and re-raises. *)
Definition server_init (cls : server_class) (address : string * Z)
  : M state server :=
  fun s =>
    let fd := created s in
    let s1 :=
      {| trace := trace s ++ [Bind cls (fst address) (snd address) fd];
         clock := clock s; cwd_log := cwd_log s;
         listening := listening s; created := S fd;
         threads := threads s |} in
    match bind_outcome w fd with
    | Some e => (Raise e, emit (ServerClose fd) s1)
    | None =>
        (Ret {| server_cls := cls; server_address := address;
                fileno := fd |},
         {| trace := trace s1; clock := clock s1; cwd_log := cwd_log s1;
            listening := fd :: listening s1; created := created s1;
            threads := threads s1 |})
    end.

(** [httpd.server_close()] *)
Definition server_close (httpd : server) : M state unit :=
  fun s =>
    let s1 := emit (ServerClose (fileno httpd)) s in
    (Ret tt,
     {| trace := trace s1; clock := clock s1; cwd_log := cwd_log s1;
        listening :=
          filter (fun fd => negb (fd =? fileno httpd)%nat) (listening s1);
        created := created s1; threads := threads s1 |}).

(** [httpd.serve_forever()] *)
Definition serve_forever (httpd : server) : M state unit :=
  fun s =>
    let fd := fileno httpd in
    let script := serve_outcome w fd in
    let s1 :=
      emits (ServeForever fd :: map (HandleRequest fd) (requests script))
            s in
    match ending script with
    | Forever => (NoReturn, s1)
    | Stops ms e =>
        (Raise e,
         {| trace := trace s1; clock := clock s1 + ms;
            cwd_log := cwd_log s1; listening := listening s1;
            created := created s1; threads := threads s1 |})
    end.

(** [def open_browser()], the closure over [port] defined in [main]. *)
Definition open_browser (port : Z) : M Thread.state unit :=
  Thread.time_sleep 1 ;;
  _ <- Thread.webbrowser_open ("http://localhost:" ++ str port)%string ;;
  ret tt.

(** [def main()] *)
Definition main : M state unit :=
  let port := 8080%Z in
  print "" ;;
  print (str_mul "=" 40) ;;
  print "     OnlyWorlds Tool Template" ;;
  print (str_mul "=" 40) ;;
  print "" ;;
  print ("Starting server at http://localhost:" ++ str port)%string ;;
  print "Press Ctrl+C to stop" ;;
  print "" ;;
  os_chdir (script_dir w) ;;
  let browser_thread := Thread.new (open_browser port) in
  let browser_thread := Thread.set_daemon browser_thread true in
  thread_start browser_thread ;;
  try_except
    (with_as (server_init TCPServer ("", port)) server_close
             (fun httpd => serve_forever httpd))
    (httpd <- server_init HTTPServer ("", port) ;;
     serve_forever httpd).

End Launcher.

(* ===================================================================== *)
(** ** One launch of the program                                          *)
(* ===================================================================== *)

Record launched : Type := {
  outcome : result unit;               (* of the main thread *)
  final : state;
  background : list (list Thread.event)   (* one log per started thread *)
}.

(** When the process exits: never while the main thread is inside a call
    that does not return, otherwise when [main] is left (no thread of the
    launcher is a non-daemon thread that would delay it). *)
Definition exit_time (r : result unit) (s : state) : option nat :=
  match r with
  | NoReturn => None
  | _ => Some (clock s)
  end.

Definition launch (w : world) : launched :=
  let (r, s) := main w init in
  {| outcome := r; final := s;
     background :=
       map (fun th => Thread.run (fst th) (snd th) (exit_time r s)
                                 (browser w))
           (threads s) |}.

(* ===================================================================== *)
(** ** Observations on a launch                                           *)
(* ===================================================================== *)


Definition is_chdir (e : event) : bool :=
  match e with Chdir _ => true | _ => false end.

Definition is_start (e : event) : bool :=
  match e with ThreadStart _ => true | _ => false end.

Definition is_bind (e : event) : bool :=
  match e with Bind _ _ _ _ => true | _ => false end.

Definition is_serve (e : event) : bool :=
  match e with ServeForever _ | HandleRequest _ _ => true | _ => false end.

Definition is_open (e : Thread.event) : bool :=
  match e with Thread.BrowserOpen _ => true | _ => false end.

(** Number of calls of [webbrowser.open] in a launch, over all threads. *)
Definition browser_opens (l : launched) : nat :=
  length (filter is_open (concat (background l))).

(** The process comes to an end. *)
Definition terminates (l : launched) : Prop := outcome l <> NoReturn.

(** What is printed before anything else is done. *)
Definition banner : list event :=
  [Println ""; Println "========================================";
   Println "     OnlyWorlds Tool Template";
   Println "========================================"; Println "";
   Println "Starting server at http://localhost:8080";
   Println "Press Ctrl+C to stop"; Println ""].

(** The thread object [main] starts. *)
Definition browser_thread : Thread.t :=
  Thread.set_daemon (Thread.new (open_browser 8080)) true.

(** Startup gets as far as the [try]: the two calls before it succeed. *)
Definition reaches_server (w : world) : Prop :=
  chdir_outcome w = None /\ start_outcome w = None.

(** The first attempt, [with TCPServer(...) as httpd: httpd.serve_forever()],
    raises [e]: in the constructor, or out of the serve loop. *)
Definition first_attempt_raises (w : world) (e : exn) : Prop :=
  bind_outcome w 0 = Some e \/
  (bind_outcome w 0 = None /\
   exists ms, ending (serve_outcome w 0) = Stops ms e).

(** The same for the attempt of the handler. *)
Definition second_attempt_raises (w : world) (e : exn) : Prop :=
  bind_outcome w 1 = Some e \/
  (bind_outcome w 1 = None /\
   exists ms, ending (serve_outcome w 1) = Stops ms e).

(** Worlds that differ from [w] in one respect only. *)
Definition with_argv (a : list string) (w : world) : world :=
  {| argv := a; script_dir := script_dir w;
     chdir_outcome := chdir_outcome w; start_outcome := start_outcome w;
     bind_outcome := bind_outcome w; serve_outcome := serve_outcome w;
     browser := browser w |}.

Definition with_browser (b : browser_outcome) (w : world) : world :=
  {| argv := argv w; script_dir := script_dir w;
     chdir_outcome := chdir_outcome w; start_outcome := start_outcome w;
     bind_outcome := bind_outcome w; serve_outcome := serve_outcome w;
     browser := b |}.

Definition with_requests (reqs : nat -> list string) (w : world) : world :=
  {| argv := argv w; script_dir := script_dir w;
     chdir_outcome := chdir_outcome w; start_outcome := start_outcome w;
     bind_outcome := bind_outcome w;
     serve_outcome := fun fd =>
       {| requests := reqs fd; ending := ending (serve_outcome w fd) |};
     browser := browser w |}.

(** *** Sample worlds *)

(** Nothing goes wrong and nobody interrupts: two requests seen so far. *)
Definition quiet : world :=
  {| argv := []; script_dir := "/home/user/tool-template";
     chdir_outcome := None; start_outcome := None;
     bind_outcome := fun _ => None;
     serve_outcome := fun _ =>
       {| requests := ["/"; "/index.html"]; ending := Forever |};
     browser := Opened |}.

(** Ctrl+C after three seconds of serving; the port is free again for the
    second server, which is then left alone. *)
Definition ctrl_c : world :=
  {| argv := []; script_dir := "/home/user/tool-template";
     chdir_outcome := None; start_outcome := None;
     bind_outcome := fun _ => None;
     serve_outcome := fun fd =>
       match fd with
       | 0 => {| requests := ["/"]; ending := Stops 3000 KeyboardInterrupt |}
       | _ => {| requests := []; ending := Forever |}
       end;
     browser := Opened |}.

(** Ctrl+C twice, three and then one and a half seconds into serving. *)
Definition ctrl_c_twice : world :=
  {| argv := []; script_dir := "/home/user/tool-template";
     chdir_outcome := None; start_outcome := None;
     bind_outcome := fun _ => None;
     serve_outcome := fun fd =>
       match fd with
       | 0 => {| requests := ["/"]; ending := Stops 3000 KeyboardInterrupt |}
       | _ => {| requests := []; ending := Stops 1500 KeyboardInterrupt |}
       end;
     browser := Opened |}.

(** Another process holds port 8080 throughout. *)
Definition port_busy : world :=
  {| argv := []; script_dir := "/home/user/tool-template";
     chdir_outcome := None; start_outcome := None;
     bind_outcome := fun _ => Some (OSError EADDRINUSE);
     serve_outcome := fun _ => {| requests := []; ending := Forever |};
     browser := Opened |}.

(** Port 8080 is held at the first bind and free at the second. *)
Definition port_freed : world :=
  {| argv := []; script_dir := "/home/user/tool-template";
     chdir_outcome := None; start_outcome := None;
     bind_outcome := fun fd =>
       match fd with 0 => Some (OSError EADDRINUSE) | _ => None end;
     serve_outcome := fun _ => {| requests := ["/"]; ending := Forever |};
     browser := Opened |}.

(** No desktop: [webbrowser.open] raises. *)
Definition headless : world :=
  {| argv := ["--port"; "9000"]; script_dir := "/srv/tool-template";
     chdir_outcome := None; start_outcome := None;
     bind_outcome := fun _ => None;
     serve_outcome := fun _ =>
       {| requests := ["/"; "/missing"]; ending := Forever |};
     browser := OpenRaises WebbrowserError |}.

(** Events that belong to creating, running and closing a server. *)
Definition is_server_event (e : event) : bool :=
  match e with
  | Bind _ _ _ _ | ServeForever _ | HandleRequest _ _ | ServerClose _ => true
  | _ => false
  end.

(** A server is created on every interface, port 8080. *)
Definition on_all_interfaces_8080 (e : event) : Prop :=
  match e with
  | Bind _ host port _ => host = "" /\ port = 8080%Z
  | _ => True
  end.

(** A log of the browser thread: it slept one second and was then cut off, or
    it slept, opened [url] and opened nothing else. *)
Definition sleeps_then_opens (url : string) (l : list Thread.event) : Prop :=
  l = [Thread.Sleep 1] \/
  exists tl, l = Thread.Sleep 1 :: Thread.BrowserOpen url :: tl /\
             filter is_open tl = [].

(** *** The life of a server socket, read off a trace

    A socket exists from the constructor call ([Bind]) to [server_close];
    in between it may enter its serve loop and handle requests there. *)
Inductive phase : Type := Created | Serving.

(** One event against the socket that exists, if any.  [None]: the event
    does not fit (a second socket beside an existing one, a serve loop or a
    request on a socket that is not there, a close of another socket). *)
Definition socket_step (st : option (nat * phase)) (e : event)
  : option (option (nat * phase)) :=
  match e, st with
  | Println _, _ | Chdir _, _ | ThreadStart _, _ => Some st
  | Bind _ _ _ fd, None => Some (Some (fd, Created))
  | ServeForever fd, Some (fd', Created) =>
      if (fd =? fd')%nat then Some (Some (fd, Serving)) else None
  | HandleRequest fd _, Some (fd', Serving) =>
      if (fd =? fd')%nat then Some st else None
  | ServerClose fd, Some (fd', _) =>
      if (fd =? fd')%nat then Some None else None
  | _, _ => None
  end.

Fixpoint socket_run (st : option (nat * phase)) (tr : list event)
  : option (option (nat * phase)) :=
  match tr with
  | [] => Some st
  | e :: tr' =>
      match socket_step st e with
      | Some st' => socket_run st' tr'
      | None => None
      end
  end.

(** The calls of [server_close] on socket [fd]. *)
Definition closes (fd : nat) (e : event) : bool :=
  match e with ServerClose fd' => (fd' =? fd)%nat | _ => false end.

(** The process stays: the main thread is in a serve loop that nothing
    interrupts, the first or, after a failed first attempt, the second. *)
Definition serves_on (w : world) : Prop :=
  (bind_outcome w 0 = None /\ ending (serve_outcome w 0) = Forever) \/
  ((exists e, first_attempt_raises w e) /\
   bind_outcome w 1 = None /\ ending (serve_outcome w 1) = Forever).

(* ===================================================================== *)
(** ** Running [main] in a proof                                          *)
(* ===================================================================== *)

(** Each answer of the world that the run depends on is asked once; an
    answer already known from a hypothesis is used as it is. *)
Ltac ask_world :=
  match goal with
  | H : ?x = _ |- context [match ?x with _ => _ end] => rewrite H
  | |- context [match chdir_outcome ?w with _ => _ end] =>
      destruct (chdir_outcome w) eqn:?
  | |- context [match start_outcome ?w with _ => _ end] =>
      destruct (start_outcome w) eqn:?
  | |- context [match bind_outcome ?w ?k with _ => _ end] =>
      destruct (bind_outcome w k) eqn:?
  | |- context [match ending ?x with _ => _ end] =>
      destruct (ending x) eqn:?
  end.

Ltac run_main :=
  unfold launch, main;
  repeat first
    [ progress cbn
    | progress unfold bind, try_except, with_as, os_chdir, thread_start,
        server_init, serve_forever, server_close
    | ask_world ].

Section Requests.

Variable fd : nat.
Variable paths : list string.

Lemma requests_filtered_out (f : event -> bool) :
  (forall p, f (HandleRequest fd p) = false) ->
  filter f (map (HandleRequest fd) paths) = [].
Proof.
  intros Hf. induction paths as [|p ps IH]; cbn.
  - reflexivity.
  - rewrite Hf. exact IH.
Qed.

Lemma requests_kept (f : event -> bool) :
  (forall p, f (HandleRequest fd p) = true) ->
  filter f (map (HandleRequest fd) paths) = map (HandleRequest fd) paths.
Proof.
  intros Hf. induction paths as [|p ps IH]; cbn.
  - reflexivity.
  - rewrite Hf, IH. reflexivity.
Qed.

Lemma requests_Forall (P : event -> Prop) :
  (forall p, P (HandleRequest fd p)) ->
  Forall P (map (HandleRequest fd) paths).
Proof.
  intros HP. apply Forall_forall. intros e He.
  apply in_map_iff in He. destruct He as [p [<- _]]. apply HP.
Qed.

End Requests.

(** Splits a [Forall] over a trace into one goal per event. *)
Ltac each_event :=
  repeat first
    [ apply Forall_nil
    | apply Forall_cons
    | apply requests_Forall; intros ?
    | apply Forall_app; split ].

(** Brings a filtered trace to a value: appends are split, the requests of a
    serve loop are kept or dropped as a whole. *)
Ltac filter_trace :=
  repeat first
    [ rewrite filter_app
    | rewrite requests_filtered_out by reflexivity
    | rewrite requests_kept by reflexivity
    | progress cbn ].

(* ===================================================================== *)
(** ** The listener                                                       *)
(* ===================================================================== *)

(** C7.  Every server the launcher creates, in the [try] and in the handler,
    is bound to the empty host (all interfaces) and to port 8080, whatever
    the world does; and a launch that gets past startup does create one, as
    its first server. *)
Theorem listener_on_all_interfaces_port_8080 (w : world) :
  Forall on_all_interfaces_8080 (trace (final (launch w))) /\
  (reaches_server w ->
   In (Bind TCPServer "" 8080 0) (trace (final (launch w)))).
Proof.
  split.
  - run_main; each_event; cbn; auto.
  - intros [Hcd Hst].
    run_main; repeat (try (left; reflexivity); right).
Qed.

Lemma listener_on_all_interfaces_port_8080_witness :
  reaches_server quiet /\
  In (Bind TCPServer "" 8080 0) (trace (final (launch quiet))).
Proof.
  assert (H : reaches_server quiet) by (split; reflexivity).
  split.
  - exact H.
  - exact (proj2 (listener_on_all_interfaces_port_8080 quiet) H).
Defined.

(* ===================================================================== *)
(** ** The working directory                                              *)
(* ===================================================================== *)

(** C8.  In every launch there is exactly one [os.chdir] call, it is given
    the program's own directory and it comes right after the banner, before
    any thread or server exists.  When the call succeeds, the working
    directory has been set once over the whole run, to that directory:
    nothing later sets it again. *)
Theorem working_directory_set_once_at_startup (w : world) :
  filter is_chdir (trace (final (launch w))) = [Chdir (script_dir w)] /\
  (exists rest,
     trace (final (launch w)) = banner ++ Chdir (script_dir w) :: rest) /\
  (chdir_outcome w = None ->
   cwd_log (final (launch w)) = [script_dir w]).
Proof.
  split; [| split].
  - run_main; filter_trace; reflexivity.
  - run_main; eexists; reflexivity.
  - intros Hcd. run_main; reflexivity.
Qed.

Lemma working_directory_set_once_at_startup_witness :
  chdir_outcome ctrl_c = None /\
  cwd_log (final (launch ctrl_c)) = ["/home/user/tool-template"].
Proof.
  split.
  - reflexivity.
  - exact (proj2 (proj2 (working_directory_set_once_at_startup ctrl_c))
                 eq_refl).
Defined.

(* ===================================================================== *)
(** ** What the launcher does not depend on                               *)
(* ===================================================================== *)

(** [main] reads five answers of the world and nothing else. *)
Lemma main_reads (w w' : world) :
  script_dir w' = script_dir w ->
  chdir_outcome w' = chdir_outcome w ->
  start_outcome w' = start_outcome w ->
  bind_outcome w' = bind_outcome w ->
  serve_outcome w' = serve_outcome w ->
  main w' = main w.
Proof.
  intros Hd Hc Hs Hb Hv.
  unfold main, os_chdir, thread_start, server_init, serve_forever.
  rewrite Hd, Hc, Hs, Hb, Hv. reflexivity.
Qed.

(** C10.  Two launches that differ only in the command-line arguments are
    the same launch: same result of the main thread, same calls in the same
    order (banner, directory, thread, servers, requests), same final state,
    same log of the browser thread. *)
Theorem command_line_arguments_ignored (w : world) (args : list string) :
  launch (with_argv args w) = launch w.
Proof.
  unfold launch.
  rewrite (main_reads w (with_argv args w)) by reflexivity.
  reflexivity.
Qed.

(** The browser thread's log in closed form: cut off in its sleep by the exit
    of the process, or the sleep, the call, and the excepthook when the call
    raised. *)
Lemma browser_thread_run (t0 : nat) (exit : option nat) (b : browser_outcome) :
  Thread.run browser_thread t0 exit b =
  if match exit with Some d => (d <? t0 + 1000)%nat | None => false end
  then [Thread.Sleep 1]
  else Thread.Sleep 1 :: Thread.BrowserOpen "http://localhost:8080" ::
       match b with OpenRaises e => [Thread.Excepthook e] | _ => [] end.
Proof.
  unfold Thread.run, browser_thread, open_browser, bind, Thread.time_sleep.
  cbn [Thread.set_daemon Thread.new Thread.target Thread.daemon
       Thread.deadline Thread.now].
  replace (1000 * 1) with 1000 by reflexivity.
  destruct exit as [d|]; [destruct (d <? t0 + 1000)%nat |];
    destruct b; reflexivity.
Qed.

(** C9.  Whatever [webbrowser.open] does (opens a browser, finds none,
    raises), the main thread ends the same way, with the same calls made and
    the same sockets listening; and an exception of the call stays in the
    log of the browser thread, where the thread's excepthook ends it. *)
Theorem browser_failure_not_surfaced (w : world) (b : browser_outcome) :
  outcome (launch (with_browser b w)) = outcome (launch w) /\
  final (launch (with_browser b w)) = final (launch w) /\
  forall e t0 exit,
    Thread.run browser_thread t0 exit (OpenRaises e) = [Thread.Sleep 1] \/
    Thread.run browser_thread t0 exit (OpenRaises e) =
      [Thread.Sleep 1; Thread.BrowserOpen "http://localhost:8080";
       Thread.Excepthook e].
Proof.
  unfold launch.
  rewrite (main_reads w (with_browser b w)) by reflexivity.
  destruct (main w init) as [r s]. cbn [outcome final].
  repeat split.
  intros e t0 exit. rewrite browser_thread_run.
  destruct (match exit with Some d => (d <? t0 + 1000)%nat | None => false end);
    [left | right]; reflexivity.
Qed.

(** The launch without a desktop, run: the server serves, the thread logs
    its exception. *)
Example headless_launch :
  outcome (launch headless) = NoReturn /\
  listening (final (launch headless)) = [0] /\
  background (launch headless) =
    [[Thread.Sleep 1; Thread.BrowserOpen "http://localhost:8080";
      Thread.Excepthook WebbrowserError]].
Proof. repeat split. Qed.

(* ===================================================================== *)
(** ** Order of startup                                                   *)
(* ===================================================================== *)

(** C6.  The trace of every launch is the banner, then the [os.chdir] to the
    program's directory, and nothing after it when that call fails.  When
    it succeeds the next call starts the thread, and everything after that
    is server work, made by the main thread; with the thread started and
    the first bind successful, that work begins with the first server and
    its serve loop.  The thread started is the browser task, and [main]
    never returns normally from the serve loop: the call blocks until an
    exception ends it. *)
Theorem chdir_then_thread_then_serve (w : world) :
  (exists rest,
     trace (final (launch w)) = banner ++ Chdir (script_dir w) :: rest /\
     (chdir_outcome w <> None -> rest = []) /\
     (chdir_outcome w = None ->
      exists rest',
        rest = ThreadStart true :: rest' /\
        Forall (fun e => is_server_event e = true) rest' /\
        (start_outcome w = None -> bind_outcome w 0 = None ->
         exists rest'',
           rest' = Bind TCPServer "" 8080 0 :: ServeForever 0 :: rest''))) /\
  (reaches_server w -> threads (final (launch w)) = [(browser_thread, 0)]) /\
  outcome (launch w) <> Ret tt.
Proof.
  split; [| split].
  - destruct (chdir_outcome w) as [e|] eqn:Hcd.
    + run_main. eexists. split; [reflexivity |]. split; [reflexivity |].
      intros H; discriminate H.
    + destruct (start_outcome w) as [e|] eqn:Hst.
      * run_main. eexists. split; [reflexivity |].
        split; [intros H; contradiction H; reflexivity |].
        intros _. eexists. split; [reflexivity |].
        split; [constructor | intros H; discriminate H].
      * destruct (bind_outcome w 0) as [e|] eqn:Hb0.
        -- run_main; (eexists; split; [reflexivity |]);
             (split; [intros H; contradiction H; reflexivity |]);
             intros _; (eexists; split; [reflexivity |]);
             (split; [each_event; reflexivity | intros _ H; discriminate H]).
        -- run_main; (eexists; split; [reflexivity |]);
             (split; [intros H; contradiction H; reflexivity |]);
             intros _; (eexists; split; [reflexivity |]);
             (split; [each_event; reflexivity |]);
             intros _ _; eexists; reflexivity.
  - intros [Hcd Hst]. run_main; reflexivity.
  - run_main; discriminate.
Qed.

Lemma chdir_then_thread_then_serve_witness :
  reaches_server quiet /\
  threads (final (launch quiet)) = [(browser_thread, 0)] /\
  exists rest,
    trace (final (launch quiet)) =
    banner ++ Chdir "/home/user/tool-template" :: ThreadStart true ::
      Bind TCPServer "" 8080 0 :: ServeForever 0 :: rest.
Proof.
  assert (H : reaches_server quiet) by (split; reflexivity).
  destruct (chdir_then_thread_then_serve quiet) as [[r [Htr [_ Hr]]] [Hth _]].
  destruct (Hr eq_refl) as [r' [-> [_ Hr']]].
  destruct (Hr' eq_refl eq_refl) as [r'' ->].
  split; [exact H |]. split; [exact (Hth H) |].
  exists r''. exact Htr.
Defined.

(* ===================================================================== *)
(** ** The browser task                                                   *)
(* ===================================================================== *)

(** The threads of a launch: the browser thread, started at time 0, when
    startup gets that far. *)
Lemma launch_threads (w : world) :
  threads (final (launch w)) =
  match chdir_outcome w, start_outcome w with
  | None, None => [(browser_thread, 0)]
  | _, _ => []
  end.
Proof. run_main; reflexivity. Qed.

Lemma launch_background (w : world) :
  background (launch w) =
  map (fun th => Thread.run (fst th) (snd th)
                   (exit_time (outcome (launch w)) (final (launch w)))
                   (browser w))
      (threads (final (launch w))).
Proof. unfold launch. destruct (main w init) as [r s]. reflexivity. Qed.

(** C4.  The target of the thread, run from any thread state that the
    process does not cut short, logs a sleep of one second and then the call
    opening exactly http://localhost:8080, one second later on the clock.
    As a thread it logs these two, in this order, and opens nothing else.
    In every launch, every thread is this thread, and every thread log is
    the sleep alone (the process exited first) or the sleep followed by the
    one call for that URL. *)
Theorem browser_task_sleeps_then_opens :
  (forall l t0 b,
     let s := {| Thread.log := l; Thread.now := t0;
                 Thread.deadline := None; Thread.found := b |} in
     Thread.log (snd (open_browser 8080 s)) =
       l ++ [Thread.Sleep 1; Thread.BrowserOpen "http://localhost:8080"] /\
     Thread.now (snd (open_browser 8080 s)) = t0 + 1000) /\
  (forall t0 b,
     exists tl,
       Thread.run browser_thread t0 None b =
         Thread.Sleep 1 :: Thread.BrowserOpen "http://localhost:8080" :: tl /\
       filter is_open tl = []) /\
  (forall w,
     Forall (fun th => th = (browser_thread, 0))
            (threads (final (launch w))) /\
     Forall (sleeps_then_opens "http://localhost:8080")
            (background (launch w))).
Proof.
  split; [| split].
  - intros l t0 b s. subst s.
    unfold open_browser, bind, Thread.time_sleep, Thread.webbrowser_open.
    cbn [Thread.deadline Thread.found Thread.emit Thread.wake Thread.log
         Thread.now].
    replace (1000 * 1) with 1000 by reflexivity.
    destruct b; cbn [snd ret]; unfold Thread.emit, Thread.wake;
      cbn [Thread.log Thread.now];
      rewrite <- app_assoc; split; reflexivity.
  - intros t0 b. rewrite browser_thread_run.
    eexists. split; [reflexivity |]. destruct b; reflexivity.
  - intros w. rewrite launch_background, launch_threads.
    destruct (chdir_outcome w), (start_outcome w);
      split; try (constructor; fail).
    + constructor; [reflexivity | constructor].
    + constructor; [| constructor]. cbn [fst snd].
      rewrite browser_thread_run.
      destruct (match exit_time _ _ with
                | Some d => (d <? 0 + 1000)%nat
                | None => false
                end).
      * left. reflexivity.
      * right. eexists. split; [reflexivity |].
        destruct (browser w); reflexivity.
Qed.

(** The requests that arrive change neither how [main] ends nor when, so the
    browser thread logs the same. *)
Lemma requests_do_not_reach_the_thread (w : world) (reqs : nat -> list string) :
  background (launch (with_requests reqs w)) = background (launch w).
Proof. run_main; reflexivity. Qed.

(** C5, as the code has it.  The browser is opened at most once per launch,
    and how often does not depend on the requests the servers handle.  It is
    opened exactly once when startup has started the thread and the process
    is still there one second later: the main thread is in a serve loop for
    good, or leaves [main] at least 1000 ms after launch.  (The thread is a
    daemon: a process that exits earlier takes it along in its sleep.) *)
Theorem browser_opened_at_most_once (w : world) :
  browser_opens (launch w) <= 1 /\
  (forall reqs,
     browser_opens (launch (with_requests reqs w)) =
     browser_opens (launch w)) /\
  (reaches_server w ->
   outcome (launch w) = NoReturn \/ 1000 <= clock (final (launch w)) ->
   browser_opens (launch w) = 1).
Proof.
  split; [| split].
  - unfold browser_opens. rewrite launch_background, launch_threads.
    destruct (chdir_outcome w), (start_outcome w); cbn [map concat fst snd];
      try (cbn; lia).
    rewrite browser_thread_run, app_nil_r.
    destruct (match exit_time _ _ with
              | Some d => (d <? 0 + 1000)%nat
              | None => false
              end); [cbn; lia |].
    destruct (browser w); cbn; lia.
  - intros reqs. unfold browser_opens.
    rewrite requests_do_not_reach_the_thread. reflexivity.
  - intros [Hcd Hst] Halive. unfold browser_opens.
    rewrite launch_background, launch_threads, Hcd, Hst.
    cbn [map concat fst snd]. rewrite browser_thread_run, app_nil_r.
    assert (Hcut : match exit_time (outcome (launch w)) (final (launch w)) with
                   | Some d => (d <? 0 + 1000)%nat
                   | None => false
                   end = false).
    { destruct Halive as [-> | Hclock]; [reflexivity |].
      destruct (outcome (launch w)); cbn [exit_time];
        try reflexivity; apply Nat.ltb_ge; exact Hclock. }
    rewrite Hcut. destruct (browser w); reflexivity.
Qed.

Lemma browser_opened_at_most_once_witness :
  reaches_server ctrl_c_twice /\
  1000 <= clock (final (launch ctrl_c_twice)) /\
  browser_opens (launch ctrl_c_twice) = 1.
Proof.
  assert (H : reaches_server ctrl_c_twice) by (split; reflexivity).
  assert (Hclock : 1000 <= clock (final (launch ctrl_c_twice)))
    by (apply Nat.leb_le; reflexivity).
  split; [exact H |]. split; [exact Hclock |].
  exact (proj2 (proj2 (browser_opened_at_most_once ctrl_c_twice))
               H (or_intror Hclock)).
Defined.

(** C5, as stated, fails where port 8080 is held by another process: both
    binds fail at once, the process is gone long before the thread's second
    of sleep is over, and the browser is never opened. *)
Lemma port_busy_browser_never_opened :
  ~ (browser_opens (launch port_busy) = 1).
Proof. vm_compute. discriminate. Qed.

Example port_busy_launch :
  outcome (launch port_busy) = Raise (OSError EADDRINUSE) /\
  clock (final (launch port_busy)) = 0 /\
  background (launch port_busy) = [[Thread.Sleep 1]].
Proof. repeat split. Qed.

(* ===================================================================== *)
(** ** The [try] and its handler                                          *)
(* ===================================================================== *)

Ltac find_event := repeat (rewrite in_app_iff || cbn); intuition auto.

(** C3.  When the first attempt raises, in the constructor or out of the
    serve loop and whatever the exception, the launcher creates exactly one
    more server, an [HTTPServer] on the same ("", 8080), and when that one
    binds it enters its serve loop.  An exception of this second attempt is
    the result of [main]: nothing catches it, and the process ends. *)
Theorem any_exception_starts_one_fallback (w : world) (e : exn) :
  reaches_server w ->
  first_attempt_raises w e ->
  filter is_bind (trace (final (launch w))) =
    [Bind TCPServer "" 8080 0; Bind HTTPServer "" 8080 1] /\
  (bind_outcome w 1 = None ->
   In (ServeForever 1) (trace (final (launch w)))) /\
  (forall e',
     second_attempt_raises w e' ->
     outcome (launch w) = Raise e' /\ terminates (launch w)).
Proof.
  intros [Hcd Hst] Hfirst. split; [| split].
  - destruct Hfirst as [Hb0 | [Hb0 [ms Hend]]];
      run_main; filter_trace; reflexivity.
  - intros Hb1.
    destruct Hfirst as [Hb0 | [Hb0 [ms Hend]]]; run_main; find_event.
  - intros e' Hsecond. unfold terminates.
    destruct Hfirst as [Hb0 | [Hb0 [ms Hend]]];
      destruct Hsecond as [Hb1 | [Hb1 [ms' Hend']]];
      run_main; split; congruence.
Qed.

Lemma any_exception_starts_one_fallback_witness :
  reaches_server ctrl_c_twice /\
  first_attempt_raises ctrl_c_twice KeyboardInterrupt /\
  second_attempt_raises ctrl_c_twice KeyboardInterrupt /\
  filter is_bind (trace (final (launch ctrl_c_twice))) =
    [Bind TCPServer "" 8080 0; Bind HTTPServer "" 8080 1] /\
  In (ServeForever 1) (trace (final (launch ctrl_c_twice))) /\
  outcome (launch ctrl_c_twice) = Raise KeyboardInterrupt.
Proof.
  assert (H : reaches_server ctrl_c_twice) by (split; reflexivity).
  assert (H1 : first_attempt_raises ctrl_c_twice KeyboardInterrupt)
    by (right; split; [reflexivity | exists 3000; reflexivity]).
  assert (H2 : second_attempt_raises ctrl_c_twice KeyboardInterrupt)
    by (right; split; [reflexivity | exists 1500; reflexivity]).
  destruct (any_exception_starts_one_fallback ctrl_c_twice KeyboardInterrupt
              H H1) as [Hbinds [Hserve Hout]].
  split; [exact H |].
  split; [exact H1 |].
  split; [exact H2 |].
  split; [exact Hbinds |].
  split; [exact (Hserve eq_refl) |].
  exact (proj1 (Hout KeyboardInterrupt H2)).
Defined.

(** C2, as the code has it.  When the first bind fails, the failure is caught
    and the bind is tried once more, by an [HTTPServer] on the same
    ("", 8080): two servers are created in all, none on another port.  When
    this second bind fails too, its exception is the result of [main]: the
    process ends, no serve loop was entered and no socket is left open. *)
Theorem bind_failure_retried_once_then_fatal (w : world) (e0 : exn) :
  reaches_server w ->
  bind_outcome w 0 = Some e0 ->
  filter is_bind (trace (final (launch w))) =
    [Bind TCPServer "" 8080 0; Bind HTTPServer "" 8080 1] /\
  (forall e1,
     bind_outcome w 1 = Some e1 ->
     outcome (launch w) = Raise e1 /\
     terminates (launch w) /\
     filter is_serve (trace (final (launch w))) = [] /\
     listening (final (launch w)) = []).
Proof.
  intros [Hcd Hst] Hb0. split.
  - run_main; filter_trace; reflexivity.
  - intros e1 Hb1. unfold terminates.
    run_main. repeat split. discriminate.
Qed.

Lemma bind_failure_retried_once_then_fatal_witness :
  reaches_server port_busy /\
  bind_outcome port_busy 0 = Some (OSError EADDRINUSE) /\
  bind_outcome port_busy 1 = Some (OSError EADDRINUSE) /\
  filter is_bind (trace (final (launch port_busy))) =
    [Bind TCPServer "" 8080 0; Bind HTTPServer "" 8080 1] /\
  outcome (launch port_busy) = Raise (OSError EADDRINUSE) /\
  filter is_serve (trace (final (launch port_busy))) = [].
Proof.
  assert (H : reaches_server port_busy) by (split; reflexivity).
  destruct (bind_failure_retried_once_then_fatal
              port_busy (OSError EADDRINUSE) H eq_refl) as [Hbinds Hfatal].
  destruct (Hfatal (OSError EADDRINUSE) eq_refl) as [Hout [_ [Hserve _]]].
  split; [exact H |].
  split; [reflexivity |].
  split; [reflexivity |].
  split; [exact Hbinds |].
  split; [exact Hout | exact Hserve].
Defined.

(** C2, as stated, fails where port 8080 is held by another process: the
    launcher does not stop at the first failure, it binds a second time. *)
Lemma port_busy_is_bound_twice :
  ~ (bind_outcome port_busy 0 = Some (OSError EADDRINUSE) ->
     outcome (launch port_busy) = Raise (OSError EADDRINUSE) /\
     filter is_serve (trace (final (launch port_busy))) = [] /\
     length (filter is_bind (trace (final (launch port_busy)))) = 1).
Proof.
  intros H. destruct (H eq_refl) as [_ [_ Hone]].
  vm_compute in Hone. discriminate Hone.
Qed.

(** When the port is free again at the second bind, the launcher serves. *)
Example port_freed_launch :
  outcome (launch port_freed) = NoReturn /\
  listening (final (launch port_freed)) = [1] /\
  filter is_serve (trace (final (launch port_freed))) =
    [ServeForever 1; HandleRequest 1 "/"].
Proof. repeat split. Qed.

(** C1, run on the code.  Ctrl+C in the serve loop: the [with] closes the
    first socket, the bare [except:] takes the KeyboardInterrupt, and the
    handler binds port 8080 again and serves on.  The process has not ended
    and a socket is listening. *)
Theorem interrupt_starts_second_server :
  ending (serve_outcome ctrl_c 0) = Stops 3000 KeyboardInterrupt /\
  trace (final (launch ctrl_c)) =
    banner ++
    [Chdir "/home/user/tool-template"; ThreadStart true;
     Bind TCPServer "" 8080 0; ServeForever 0; HandleRequest 0 "/";
     ServerClose 0;
     Bind HTTPServer "" 8080 1; ServeForever 1] /\
  outcome (launch ctrl_c) = NoReturn /\
  listening (final (launch ctrl_c)) = [1].
Proof. repeat split. Qed.

(** Only a second Ctrl+C, in the second serve loop, ends the process; the
    second server's socket is not closed by the launcher. *)
Example second_interrupt_ends_process :
  outcome (launch ctrl_c_twice) = Raise KeyboardInterrupt /\
  listening (final (launch ctrl_c_twice)) = [1] /\
  clock (final (launch ctrl_c_twice)) = 4500.
Proof. repeat split. Qed.

(* ===================================================================== *)
(** ** More on the run of [main]                                          *)
(* ===================================================================== *)

(** *** Output *)


(** *** Startup failures *)

(** [os.chdir] and [Thread.start] are outside the [try]: when one of them
    raises, that exception is the result of [main], no server is created,
    nothing listens, and the browser is never opened.  A failing
    [Thread.start] leaves the directory changed and no thread behind. *)
Theorem startup_failure_is_fatal (w : world) (e : exn) :
  chdir_outcome w = Some e \/
  (chdir_outcome w = None /\ start_outcome w = Some e) ->
  outcome (launch w) = Raise e /\
  filter is_server_event (trace (final (launch w))) = [] /\
  listening (final (launch w)) = [] /\
  threads (final (launch w)) = [] /\
  browser_opens (launch w) = 0 /\
  (chdir_outcome w = None -> cwd_log (final (launch w)) = [script_dir w]).
Proof.
  intros [Hcd | [Hcd Hst]].
  - run_main. repeat split. intros H. discriminate H.
  - run_main. repeat split.
Qed.

Lemma startup_failure_is_fatal_witness :
  let w := {| argv := []; script_dir := "/gone";
              chdir_outcome := Some (OSError 2); start_outcome := None;
              bind_outcome := fun _ => None;
              serve_outcome := fun _ => {| requests := []; ending := Forever |};
              browser := Opened |} in
  chdir_outcome w = Some (OSError 2) /\
  outcome (launch w) = Raise (OSError 2) /\
  browser_opens (launch w) = 0.
Proof.
  intros w.
  assert (H : chdir_outcome w = Some (OSError 2)) by reflexivity.
  destruct (startup_failure_is_fatal w (OSError 2) (or_introl H))
    as [Hout [_ [_ [_ [Hopen _]]]]].
  split; [exact H |]. split; [exact Hout | exact Hopen].
Defined.

(** *** Sockets *)

Lemma socket_run_app (st : option (nat * phase)) (tr1 tr2 : list event) :
  socket_run st (tr1 ++ tr2) =
  match socket_run st tr1 with
  | Some st' => socket_run st' tr2
  | None => None
  end.
Proof.
  revert st. induction tr1 as [|e tr1 IH]; intros st; cbn [socket_run app].
  - reflexivity.
  - destruct (socket_step st e) as [st'|]; [apply IH | reflexivity].
Qed.

Lemma socket_run_requests (fd : nat) (paths : list string) :
  socket_run (Some (fd, Serving)) (map (HandleRequest fd) paths) =
  Some (Some (fd, Serving)).
Proof.
  induction paths as [|p ps IH]; cbn [map socket_run socket_step].
  - reflexivity.
  - rewrite Nat.eqb_refl. exact IH.
Qed.

Ltac follow_socket :=
  repeat first
    [ rewrite socket_run_app
    | rewrite socket_run_requests
    | progress cbn ].

(** In every launch the calls on server sockets follow the life of a socket:
    at no point do two sockets exist, so the first one is closed before the
    handler creates the second; a serve loop runs only on a socket that was
    created and not closed, and requests are handled only inside a serve
    loop.  At the end no socket is left, or one is left in its serve loop,
    and that one is the socket the launcher still listens on. *)
Theorem sockets_follow_their_life (w : world) :
  exists st,
    socket_run None (trace (final (launch w))) = Some st /\
    ((st = None /\ listening (final (launch w)) = []) \/
     (exists fd, st = Some (fd, Serving) /\
                 listening (final (launch w)) = [fd])).
Proof.
  run_main; follow_socket;
    (eexists; split; [reflexivity |]);
    first [ left; split; reflexivity
          | right; eexists; split; reflexivity ].
Qed.

(** The first socket is closed exactly once whenever the first attempt has
    ended, by the constructor that failed or by the [with] on the way out.
    The second server is created outside any [with]: when it has bound, the
    launcher never closes its socket, also not when its serve loop raises;
    the socket is still listening when [main] is left. *)
Theorem first_socket_closed_second_never (w : world) :
  reaches_server w ->
  (exists e, first_attempt_raises w e) ->
  filter (closes 0) (trace (final (launch w))) = [ServerClose 0] /\
  (bind_outcome w 1 = None ->
   filter (closes 1) (trace (final (launch w))) = [] /\
   listening (final (launch w)) = [1]).
Proof.
  intros [Hcd Hst] [e Hfirst]. split.
  - destruct Hfirst as [Hb0 | [Hb0 [ms Hend]]];
      run_main; filter_trace; reflexivity.
  - intros Hb1.
    destruct Hfirst as [Hb0 | [Hb0 [ms Hend]]];
      run_main; filter_trace; split; reflexivity.
Qed.

Lemma first_socket_closed_second_never_witness :
  reaches_server ctrl_c_twice /\
  first_attempt_raises ctrl_c_twice KeyboardInterrupt /\
  outcome (launch ctrl_c_twice) = Raise KeyboardInterrupt /\
  filter (closes 0) (trace (final (launch ctrl_c_twice))) = [ServerClose 0] /\
  filter (closes 1) (trace (final (launch ctrl_c_twice))) = [] /\
  listening (final (launch ctrl_c_twice)) = [1].
Proof.
  assert (H : reaches_server ctrl_c_twice) by (split; reflexivity).
  assert (H1 : first_attempt_raises ctrl_c_twice KeyboardInterrupt)
    by (right; split; [reflexivity | exists 3000; reflexivity]).
  destruct (first_socket_closed_second_never ctrl_c_twice H
              (ex_intro _ KeyboardInterrupt H1)) as [Hfirst Hsecond].
  destruct (Hsecond eq_refl) as [Hnever Hleft].
  split; [exact H |].
  split; [exact H1 |].
  split; [reflexivity |].
  split; [exact Hfirst |].
  split; [exact Hnever | exact Hleft].
Defined.

(** *** How a launch ends *)

(** The process stays for good exactly when startup succeeds and a serve
    loop is entered that nothing interrupts: the first, or the second after
    the first attempt raised. *)
Theorem stays_iff_serves_on (w : world) :
  outcome (launch w) = NoReturn <-> reaches_server w /\ serves_on w.
Proof.
  unfold reaches_server, serves_on, first_attempt_raises. split.
  - run_main; intros H; try discriminate H;
      (split; [split; reflexivity |]);
      first
        [ left; split; reflexivity
        | right; split;
          [ eexists; first [ left; reflexivity
                           | right; split; [reflexivity | eexists; reflexivity] ]
          | split; reflexivity ] ].
  - intros [[Hcd Hst] [[Hb0 Hend] | [[e [Hb0 | [Hb0 [ms Hend]]]] [Hb1 Hend']]]];
      run_main; reflexivity.
Qed.

Lemma stays_iff_serves_on_witness :
  reaches_server port_freed /\ serves_on port_freed /\
  outcome (launch port_freed) = NoReturn.
Proof.
  assert (H : reaches_server port_freed) by (split; reflexivity).
  assert (Hs : serves_on port_freed).
  { right. split; [| split; reflexivity].
    exists (OSError EADDRINUSE). left. reflexivity. }
  split; [exact H |]. split; [exact Hs |].
  exact (proj2 (stays_iff_serves_on port_freed) (conj H Hs)).
Defined.

(** Past startup the process ends only with the exception of the second
    attempt.  The exception that ended the first attempt (the first bind
    failure, the first Ctrl+C) is never the one the process ends with. *)
Theorem process_ends_with_second_exception (w : world) (e : exn) :
  reaches_server w ->
  outcome (launch w) = Raise e ->
  (exists e0, first_attempt_raises w e0) /\ second_attempt_raises w e.
Proof.
  unfold first_attempt_raises, second_attempt_raises.
  intros [Hcd Hst].
  run_main; intros H; try discriminate H; injection H as <-;
    (split;
     [ eexists; first [ left; reflexivity
                      | right; split; [reflexivity | eexists; reflexivity] ]
     | first [ left; reflexivity
             | right; split; [reflexivity | eexists; reflexivity] ] ]).
Qed.

Lemma process_ends_with_second_exception_witness :
  reaches_server port_busy /\
  outcome (launch port_busy) = Raise (OSError EADDRINUSE) /\
  second_attempt_raises port_busy (OSError EADDRINUSE).
Proof.
  assert (H : reaches_server port_busy) by (split; reflexivity).
  assert (Hout : outcome (launch port_busy) = Raise (OSError EADDRINUSE))
    by reflexivity.
  split; [exact H |]. split; [exact Hout |].
  exact (proj2 (process_ends_with_second_exception
                  port_busy (OSError EADDRINUSE) H Hout)).
Defined.

(** *** The browser *)

(** The number of browser openings of a launch, from the answers of the
    world and the time the process exits. *)
Lemma browser_opens_value (w : world) :
  browser_opens (launch w) =
  match chdir_outcome w, start_outcome w with
  | None, None =>
      if match exit_time (outcome (launch w)) (final (launch w)) with
         | Some d => (d <? 1000)%nat
         | None => false
         end
      then 0 else 1
  | _, _ => 0
  end.
Proof.
  unfold browser_opens. rewrite launch_background, launch_threads.
  destruct (chdir_outcome w), (start_outcome w); try reflexivity.
  cbn [map concat fst snd]. rewrite browser_thread_run, app_nil_r.
  change (0 + 1000) with 1000.
  destruct (match exit_time _ _ with
            | Some d => (d <? 1000)%nat
            | None => false
            end); [reflexivity |].
  destruct (browser w); reflexivity.
Qed.

(** The browser is opened exactly in the launches that start the thread and
    are still running one second later.  In all others it is not opened at
    all: not after a failed startup, and not when the process has ended
    within the second, as it does when both binds fail at once. *)
Theorem browser_opened_iff_alive_after_a_second (w : world) :
  (browser_opens (launch w) = 1 <->
   reaches_server w /\
   (outcome (launch w) = NoReturn \/ 1000 <= clock (final (launch w)))) /\
  (browser_opens (launch w) <> 1 -> browser_opens (launch w) = 0).
Proof.
  rewrite browser_opens_value. unfold reaches_server.
  destruct (chdir_outcome w) as [e|]; [| destruct (start_outcome w) as [e|]].
  - split; [split |]; [discriminate | | reflexivity].
    intros [[H _] _]. discriminate H.
  - split; [split |]; [discriminate | | reflexivity].
    intros [[_ H] _]. discriminate H.
  - destruct (outcome (launch w)) as [[]|e|]; cbn [exit_time];
      try (destruct (Nat.ltb_spec (clock (final (launch w))) 1000) as [Hlt|Hge]).
    all: split; [split |]; try reflexivity; try discriminate;
      try (intros H; contradiction H; reflexivity).
    all: try (intros _; split; [split; reflexivity |]; auto; fail).
    all: intros [_ [H | H]]; [discriminate H | lia].
Qed.

Lemma browser_opened_iff_alive_after_a_second_witness :
  browser_opens (launch port_busy) <> 1 /\
  browser_opens (launch port_busy) = 0.
Proof.
  assert (H : browser_opens (launch port_busy) <> 1)
    by (intros H; discriminate H).
  split; [exact H |].
  exact (proj2 (browser_opened_iff_alive_after_a_second port_busy) H).
Defined.

(** The result of [webbrowser.open] is not looked at: a launch that finds no
    browser (the call returns False) is, event for event and in both
    threads, the launch that finds one.  Only a call that raises shows, and
    only in the log of the thread. *)
Theorem missing_browser_is_silent (w : world) :
  launch (with_browser NoBrowser w) = launch (with_browser Opened w) /\
  forall e,
    outcome (launch (with_browser (OpenRaises e) w)) =
      outcome (launch (with_browser Opened w)) /\
    final (launch (with_browser (OpenRaises e) w)) =
      final (launch (with_browser Opened w)).
Proof.
  split.
  - pose proof (launch_threads w) as Hth. unfold launch in *.
    rewrite (main_reads w (with_browser NoBrowser w)) by reflexivity.
    rewrite (main_reads w (with_browser Opened w)) by reflexivity.
    destruct (main w init) as [r s]. cbn [final] in Hth.
    f_equal. rewrite Hth.
    destruct (chdir_outcome w), (start_outcome w); try reflexivity.
    cbn [map fst snd browser with_browser].
    rewrite !browser_thread_run. reflexivity.
  - intros e. unfold launch.
    rewrite (main_reads w (with_browser (OpenRaises e) w)) by reflexivity.
    rewrite (main_reads w (with_browser Opened w)) by reflexivity.
    destruct (main w init) as [r s]. split; reflexivity.
Qed.
